(** * lookout.core.event_listener: a shallow embedding

    The gRPC servicer [EventListener] of [lookout/core/event_listener.py],
    its four decorators ([set_logging_context], [timeit], [log_exceptions],
    [handle]), the two decorated receivers and the life-cycle methods
    ([__init__], [start], [block], [stop]).

    Conventions.
    - Python exceptions are values of [exc]; a computation of the servicer
      is a function from the per-call state to an outcome (a value or a
      propagating exception) and the new state.  State changes made before
      an exception is raised persist, as in Python.
    - [time.perf_counter()] reads an integer clock (ticks); the float
      arithmetic and the [%.3f] rendering of durations are not modelled.
    - String data is ASCII. *)

From Stdlib Require Import ZArith Ascii String List Bool Lia.
From Stdlib Require DecimalString.
From stdpp Require Import base gmap strings list fin_maps.
Import ListNotations.

Local Open Scope string_scope.
Local Open Scope Z_scope.

(** ** Protocol messages

    The generated modules [event_pb2] and [service_analyzer_pb2] are not part
    of this tree; the records below carry the fields the servicer reads. *)

Module event_pb2.

Record ReferencePointer := {
  internal_repository_url : string;
  hash : string
}.

Record CommitRevision := {
  base : ReferencePointer;
  head : ReferencePointer
}.

Record ReviewEvent := {
  review_commit_revision : CommitRevision
}.

Record PushEvent := {
  push_commit_revision : CommitRevision;
  distinct_commits : Z
}.

End event_pb2.

(** A request object as the decorators see it: they inspect [type(request)]
    at run time. *)
Inductive Request :=
| ReqReview (r : event_pb2.ReviewEvent)
| ReqPush (p : event_pb2.PushEvent).

(** [type(request).__name__] *)
Definition type_name (request : Request) : string :=
  match request with
  | ReqReview _ => "ReviewEvent"
  | ReqPush _ => "PushEvent"
  end.

Module service_analyzer_pb2.

Record Comment := {
  comment_file : string;
  comment_line : Z;
  comment_text : string;
  comment_confidence : Z
}.

Record EventResponse := {
  analyzer_version : string;
  comments : list Comment
}.

(** [EventResponse()]: every field at its protobuf default. *)
Definition EventResponse_default : EventResponse :=
  {| analyzer_version := ""; comments := [] |}.

End service_analyzer_pb2.

Abbreviation EventResponse := service_analyzer_pb2.EventResponse.

(** ** Exceptions *)

(** The child of [BaseException] a class descends from.  [except Exception]
    matches [RootException] only; [except KeyboardInterrupt] matches
    [RootKeyboardInterrupt] only. *)
Inductive exc_root :=
| RootException
| RootKeyboardInterrupt
| RootSystemExit
| RootGeneratorExit.

Record exc := {
  exc_class : string;   (* qualified class name, as [str(type(e))] shows it *)
  exc_root_of : exc_root;
  exc_msg : string      (* [str(e)] *)
}.

Definition isinstance_Exception (e : exc) : bool :=
  match exc_root_of e with RootException => true | _ => false end.

Definition isinstance_KeyboardInterrupt (e : exc) : bool :=
  match exc_root_of e with RootKeyboardInterrupt => true | _ => false end.

(** [str(type(e))], e.g. ["<class 'ValueError'>"]. *)
Definition str_type (e : exc) : string :=
  "<class '" +:+ exc_class e +:+ "'>".

Definition NotImplementedError : exc :=
  {| exc_class := "NotImplementedError"; exc_root_of := RootException; exc_msg := "" |}.

Definition AttributeError (cls attr : string) : exc :=
  {| exc_class := "AttributeError"; exc_root_of := RootException;
     exc_msg := "'" +:+ cls +:+ "' object has no attribute '" +:+ attr +:+ "'" |}.

Definition ValueError (msg : string) : exc :=
  {| exc_class := "ValueError"; exc_root_of := RootException; exc_msg := msg |}.

Definition KeyboardInterrupt : exc :=
  {| exc_class := "KeyboardInterrupt"; exc_root_of := RootKeyboardInterrupt; exc_msg := "" |}.

Definition SystemExit (msg : string) : exc :=
  {| exc_class := "SystemExit"; exc_root_of := RootSystemExit; exc_msg := msg |}.

(** ** [stringcase.snakecase]

    The [stringcase] package is an external dependency; this follows its
    definition:
    [string = re.sub(r"[\-\.\s]", '_', str(string))], the empty string is
    returned as it is, otherwise
    [lowercase(string[0]) + re.sub(r"[A-Z]", lambda m: '_' + lowercase(m.group(0)), string[1:])]. *)
Module stringcase.

Definition is_upper (c : ascii) : bool :=
  let n := nat_of_ascii c in (65 <=? n)%nat && (n <=? 90)%nat.

Definition lowercase (c : ascii) : ascii :=
  if is_upper c then ascii_of_nat (nat_of_ascii c + 32) else c.

(** the class [[\-\.\s]] *)
Definition is_punct (c : ascii) : bool :=
  let n := nat_of_ascii c in
  (n =? 45)%nat || (n =? 46)%nat || (n =? 32)%nat
  || ((9 <=? n)%nat && (n <=? 13)%nat) || ((28 <=? n)%nat && (n <=? 31)%nat).

Fixpoint join_punct (s : string) : string :=
  match s with
  | EmptyString => EmptyString
  | String c s' => String (if is_punct c then "_"%char else c) (join_punct s')
  end.

Fixpoint split_upper (s : string) : string :=
  match s with
  | EmptyString => EmptyString
  | String c s' =>
      if is_upper c
      then String "_"%char (String (lowercase c) (split_upper s'))
      else String c (split_upper s')
  end.

Definition snakecase (s : string) : string :=
  match join_punct s with
  | EmptyString => EmptyString
  | String c s' => String (lowercase c) (split_upper s')
  end.

End stringcase.


(** ** The per-call state *)

Inductive StatusCode :=
| StatusCode_OK
| StatusCode_UNKNOWN
| StatusCode_INTERNAL.

(** The [grpc.ServicerContext] of one call, with the two attributes the
    decorators attach to it.  [start_time] and [error] are [None] while the
    attribute does not exist. *)
Record ServicerContext := {
  invocation_metadata : list (string * string);
  peer : string;
  code : option StatusCode;
  details : option string;
  start_time : option Z;
  error : option bool
}.

(** The context gRPC hands to a receiver: no status yet, no extra
    attributes. *)
Definition new_context (metadata : list (string * string)) (peer_address : string)
  : ServicerContext :=
  {| invocation_metadata := metadata; peer := peer_address;
     code := None; details := None; start_time := None; error := None |}.

(** Values of the structured logging context. *)
Inductive log_value :=
| VStr (s : string)
| VInt (z : Z)
| VDict (d : gmap string string).

Inductive log_message :=
| MsgNew (name : string)      (* "new %s" *)
| MsgOK (delta : Z)           (* "OK %.3f" *)
| MsgFail (delta : Z)         (* "FAIL %.3f" *)
| MsgFailUnknown.             (* "FAIL ?" *)

(** What a call sends to the metric sink ([record_event]) and to the
    logger ([self._log]). *)
Inductive effect :=
| Metric (name : string) (value : Z)
| LogInfo (m : log_message)
| LogException (m : log_message) (e : exc).

Record CallState := {
  context : ServicerContext;
  clock : Z;                                          (* time.perf_counter() *)
  slogging_context : option (gmap string log_value);  (* thread-local, slogging.set_context *)
  emitted : list effect                               (* oldest first *)
}.

Inductive outcome (A : Type) :=
| Returns (a : A)
| Raises (e : exc).
Arguments Returns {A} a.
Arguments Raises {A} e.

Definition M (A : Type) : Type := CallState -> outcome A * CallState.

Definition ret {A} (a : A) : M A := fun s => (Returns a, s).

Definition raise {A} (e : exc) : M A := fun s => (Raises e, s).

Definition bind {A B} (m : M A) (k : A -> M B) : M B :=
  fun s =>
    match m s with
    | (Returns a, s') => k a s'
    | (Raises e, s') => (Raises e, s')
    end.

Notation "'let*' x ':=' m 'in' k" := (bind m (fun x => k))
  (at level 10, x name, m at level 100, k at level 200, only parsing).
Notation "'do' m 'then' k" := (bind m (fun _ => k))
  (at level 10, m at level 100, k at level 200, only parsing).

(** [try: body / except Exception as e: handler(e)] *)
Definition try_except_Exception {A} (body : M A) (handler : exc -> M A) : M A :=
  fun s =>
    match body s with
    | (Returns a, s') => (Returns a, s')
    | (Raises e, s') =>
        if isinstance_Exception e then handler e s' else (Raises e, s')
    end.

Definition modify_context (f : ServicerContext -> ServicerContext) : M unit :=
  fun s => (Returns tt,
            {| context := f (context s); clock := clock s;
               slogging_context := slogging_context s; emitted := emitted s |}).

Definition emit (e : effect) : M unit :=
  fun s => (Returns tt,
            {| context := context s; clock := clock s;
               slogging_context := slogging_context s; emitted := emitted s ++ [e] |}).

Definition perf_counter : M Z := fun s => (Returns (clock s), s).

(** Time passing while foreign code runs. *)
Definition sleep (d : nat) : M unit :=
  fun s => (Returns tt,
            {| context := context s; clock := clock s + Z.of_nat d;
               slogging_context := slogging_context s; emitted := emitted s |}).

Definition record_event (name : string) (value : Z) : M unit := emit (Metric name value).

Definition slogging_set_context (obj : gmap string log_value) : M unit :=
  fun s => (Returns tt,
            {| context := context s; clock := clock s;
               slogging_context := Some obj; emitted := emitted s |}).

Definition set_start_time (t : Z) : M unit :=
  modify_context (fun c =>
    {| invocation_metadata := invocation_metadata c; peer := peer c; code := code c;
       details := details c; start_time := Some t; error := error c |}).

Definition set_code (sc : StatusCode) : M unit :=
  modify_context (fun c =>
    {| invocation_metadata := invocation_metadata c; peer := peer c; code := Some sc;
       details := details c; start_time := start_time c; error := error c |}).

Definition set_details (d : string) : M unit :=
  modify_context (fun c =>
    {| invocation_metadata := invocation_metadata c; peer := peer c; code := code c;
       details := Some d; start_time := start_time c; error := error c |}).

Definition set_error (b : bool) : M unit :=
  modify_context (fun c =>
    {| invocation_metadata := invocation_metadata c; peer := peer c; code := code c;
       details := details c; start_time := start_time c; error := Some b |}).

(** [getattr(context, "error", False)] *)
Definition getattr_error : M bool :=
  fun s => (Returns (default false (error (context s))), s).

(** [getattr(context, "start_time", None)] *)
Definition getattr_start_time : M (option Z) :=
  fun s => (Returns (start_time (context s)), s).

(** ** Handlers *)

(** One run of a handler method, as the servicer observes it: the time it
    took and how it ended. *)
Record HandlerRun := {
  duration : nat;
  result : outcome EventResponse
}.

Definition method := Request -> HandlerRun.

(** An object passed as [handlers]: its class name and its attribute
    lookup, [getattr(handlers, name)]. *)
Record HandlersObject := {
  handlers_class : string;
  handlers_getattr : string -> option method
}.

Definition not_implemented : method :=
  fun _ => {| duration := 0; result := Raises NotImplementedError |}.

(** The interface class [EventHandlers]: both callbacks raise
    [NotImplementedError]. *)
Definition EventHandlers : HandlersObject :=
  {| handlers_class := "EventHandlers";
     handlers_getattr := fun name =>
       if String.eqb name "process_review_event" then Some not_implemented
       else if String.eqb name "process_push_event" then Some not_implemented
       else None |}.

Definition invoke (m : method) (request : Request) : M EventResponse :=
  let run := m request in
  do sleep (duration run) then
  match result run with
  | Returns r => ret r
  | Raises e => raise e
  end.

(** ** The servicer *)

(** The part of [grpc.server] the listener configures and drives.
    [pool_max_workers] is the [max_workers] of the [ThreadPoolExecutor]
    handed to [grpc.server]. *)
Inductive ServerStage :=
| STOPPED
| STARTED.

Inductive RpcFate :=
| Completed
| Aborted.

(** A call being served: [remaining] is the time its handler still needs. *)
Record Rpc := {
  rpc_id : nat;
  remaining : nat
}.

Record Server := {
  pool_max_workers : Z;
  maximum_concurrent_rpcs : Z;
  address : string;
  n_workers : Z;
  insecure_ports : list string;
  stage : ServerStage;
  active : list Rpc;
  finished : list (nat * RpcFate)
}.

Record EventListener := {
  _server : Server;
  handlers : HandlersObject;
  _stop_event : bool          (* the flag of the [threading.Event] *)
}.

(** A receiver after decoration: [(self, request, context) -> EventResponse],
    the context being part of the call state. *)
Definition receiver := EventListener -> Request -> M EventResponse.

Definition extract_review_event_context (request : event_pb2.ReviewEvent)
  : gmap string log_value :=
  list_to_map
    [("type", VStr "ReviewEvent");
     ("url_base", VStr (event_pb2.internal_repository_url
                          (event_pb2.base (event_pb2.review_commit_revision request))));
     ("url_head", VStr (event_pb2.internal_repository_url
                          (event_pb2.head (event_pb2.review_commit_revision request))));
     ("commit_base", VStr (event_pb2.hash
                             (event_pb2.base (event_pb2.review_commit_revision request))));
     ("commit_head", VStr (event_pb2.hash
                             (event_pb2.head (event_pb2.review_commit_revision request))))].

Definition extract_push_event_context (request : event_pb2.PushEvent)
  : gmap string log_value :=
  list_to_map
    [("type", VStr "PushEvent");
     ("url", VStr (event_pb2.internal_repository_url
                     (event_pb2.head (event_pb2.push_commit_revision request))));
     ("head", VStr (event_pb2.hash
                      (event_pb2.head (event_pb2.push_commit_revision request))));
     ("count", VInt (event_pb2.distinct_commits request))].

(** [request_log_context_extractors[type(request)](request)] *)
Definition request_log_context_extractors (request : Request) : gmap string log_value :=
  match request with
  | ReqReview r => extract_review_event_context r
  | ReqPush p => extract_push_event_context p
  end.

(** The loop [for md in context.invocation_metadata(): meta[md.key] = md.value]
    started from [meta = {}]. *)
Definition collect_metadata (metadata : list (string * string)) : gmap string string :=
  foldl (fun meta md => <[md.1 := md.2]> meta) ∅ metadata.

Definition timeit (func : receiver) : receiver :=
  fun self request =>
    let* t0 := perf_counter in
    do set_start_time t0 then
    let* r := func self request in
    let* failed := getattr_error in
    do (if negb failed
        then
          let* t1 := perf_counter in
          let delta := t1 - t0 in
          do record_event ("request." +:+ type_name request) delta then
          emit (LogInfo (MsgOK delta))
        else ret tt) then
    ret r.

Definition set_logging_context (func : receiver) : receiver :=
  fun self request s =>
    let obj := request_log_context_extractors request in
    let meta := collect_metadata (invocation_metadata (context s)) in
    let obj := <["meta" := VDict meta]> obj in
    let obj := <["peer" := VStr (peer (context s))]> obj in
    (do slogging_set_context obj then
     do emit (LogInfo (MsgNew (type_name request))) then
     func self request) s.

Definition log_exceptions (func : receiver) : receiver :=
  fun self request =>
    try_except_Exception (func self request) (fun e =>
      let* t0 := getattr_start_time in
      do (match t0 with
          | Some t0 =>
              let* t1 := perf_counter in
              emit (LogException (MsgFail (t1 - t0)) e)
          | None => emit (LogException MsgFailUnknown e)
          end) then
      do set_code StatusCode_INTERNAL then
      do set_details (str_type e +:+ ": " +:+ exc_msg e) then
      do set_error true then
      do record_event "error" 1 then
      ret service_analyzer_pb2.EventResponse_default).

(** The name [handle] looks up on [self.handlers]. *)
Definition method_name (request : Request) : string :=
  "process_" +:+ stringcase.snakecase (type_name request).

Definition handle (func : receiver) : receiver :=
  fun self request =>
    match handlers_getattr (handlers self) (method_name request) with
    | Some m => invoke m request
    | None => raise (AttributeError (handlers_class (handlers self)) (method_name request))
    end.

(** The undecorated bodies are [pass]: they return [None] and are never
    called, [handle] replaces them. *)
Definition pass : receiver := fun _ _ => ret service_analyzer_pb2.EventResponse_default.

Definition NotifyReviewEvent (self : EventListener) (request : event_pb2.ReviewEvent)
  : M EventResponse :=
  set_logging_context (timeit (log_exceptions (handle pass))) self (ReqReview request).

Definition NotifyPushEvent (self : EventListener) (request : event_pb2.PushEvent)
  : M EventResponse :=
  set_logging_context (timeit (log_exceptions (handle pass))) self (ReqPush request).

(** The routing set up by [add_AnalyzerServicer_to_server]: each event kind
    reaches the receiver registered for it. *)
Definition serve (self : EventListener) (request : Request) : M EventResponse :=
  match request with
  | ReqReview r => NotifyReviewEvent self r
  | ReqPush p => NotifyPushEvent self p
  end.

(** The state in which gRPC enters a receiver: a fresh context, the clock
    at [now], whatever logging context the worker thread still carries, and
    nothing emitted yet. *)
Definition call_entry (metadata : list (string * string)) (peer_address : string)
    (now : Z) (previous : option (gmap string log_value)) : CallState :=
  {| context := new_context metadata peer_address; clock := now;
     slogging_context := previous; emitted := [] |}.

(** ** Life cycle *)

(** [ThreadPoolExecutor(max_workers=n)] refuses a pool without workers. *)
Definition ThreadPoolExecutor (max_workers : Z) : exc + Z :=
  if max_workers <=? 0
  then inl (ValueError "max_workers must be greater than 0")
  else inr max_workers.

(** [EventListener.__init__]; binding the port is taken to succeed. *)
Definition __init__ (address : string) (handlers : HandlersObject) (n_workers : Z)
  : exc + EventListener :=
  match ThreadPoolExecutor n_workers with
  | inl e => inl e
  | inr pool =>
      inr {| _server := {| pool_max_workers := pool;
                           maximum_concurrent_rpcs := n_workers;
                           address := address;
                           n_workers := n_workers;
                           insecure_ports := [address];
                           stage := STOPPED;
                           active := [];
                           finished := [] |};
             handlers := handlers;
             _stop_event := false |}
  end.

Definition with_server (f : Server -> Server) (self : EventListener) : EventListener :=
  {| _server := f (_server self); handlers := handlers self;
     _stop_event := _stop_event self |}.

Definition with_stop_event (b : bool) (self : EventListener) : EventListener :=
  {| _server := _server self; handlers := handlers self; _stop_event := b |}.

Module grpc.

(** [Server.start()] *)
Definition start (srv : Server) : Server :=
  {| pool_max_workers := pool_max_workers srv;
     maximum_concurrent_rpcs := maximum_concurrent_rpcs srv;
     address := address srv; n_workers := n_workers srv;
     insecure_ports := insecure_ports srv;
     stage := STARTED; active := active srv; finished := finished srv |}.

(** A call arriving at the transport: served when the server is started and
    fewer than [maximum_concurrent_rpcs] calls are active, refused
    otherwise. *)
Definition accept (r : Rpc) (srv : Server) : Server :=
  match stage srv with
  | STARTED =>
      if Z.of_nat (length (active srv)) <? maximum_concurrent_rpcs srv
      then {| pool_max_workers := pool_max_workers srv;
              maximum_concurrent_rpcs := maximum_concurrent_rpcs srv;
              address := address srv; n_workers := n_workers srv;
              insecure_ports := insecure_ports srv;
              stage := STARTED; active := active srv ++ [r];
              finished := finished srv |}
      else srv
  | STOPPED => srv
  end.

(** What [Server.stop(grace)] does to an active call, after the grpc
    documentation: with [grace = None] all existing RPCs are aborted
    immediately; with a grace period, the RPCs still active when it ends
    are aborted. *)
Definition fate (grace : option nat) (r : Rpc) : RpcFate :=
  match grace with
  | None => Aborted
  | Some g => if (remaining r <=? g)%nat then Completed else Aborted
  end.

(** [Server.stop(grace)], observed once the grace period is over.  A server
    that is not serving is left as it is. *)
Definition stop (grace : option nat) (srv : Server) : Server :=
  match stage srv with
  | STOPPED => srv
  | STARTED =>
      {| pool_max_workers := pool_max_workers srv;
         maximum_concurrent_rpcs := maximum_concurrent_rpcs srv;
         address := address srv; n_workers := n_workers srv;
         insecure_ports := insecure_ports srv;
         stage := STOPPED; active := [];
         finished := finished srv ++ ((fun r => (rpc_id r, fate grace r)) <$> active srv) |}
  end.

End grpc.

Definition start (self : EventListener) : EventListener :=
  with_server grpc.start self.

(** [self._server.stop(None if cancel_running else 0)] after
    [self._stop_event.set()]. *)
Definition stop (self : EventListener) (cancel_running : bool) : EventListener :=
  let self := with_stop_event true self in
  with_server (grpc.stop (if cancel_running then None else Some 0%nat)) self.

(** What reaches the thread suspended in [Event.wait()]: another thread sets
    the event, an exception is raised into the waiting thread (a
    [KeyboardInterrupt] for SIGINT, whatever a signal handler raises), or
    nothing of interest happens. *)
Inductive env_event :=
| EnvSet
| EnvRaise (e : exc)
| EnvIdle.

Inductive suspension (A : Type) :=
| Done (o : outcome A)
| Suspended.
Arguments Done {A} o.
Arguments Suspended {A}.

(** [threading.Event.wait()] without timeout on a flag, against the
    environment's events; the new flag is returned as well.  When the events
    run out with the flag down the thread is still suspended. *)
Fixpoint Event_wait (flag : bool) (env : list env_event) : suspension bool * bool :=
  if flag then (Done (Returns true), flag)
  else
    match env with
    | [] => (Suspended, flag)
    | EnvSet :: _ => (Done (Returns true), true)
    | EnvRaise e :: _ => (Done (Raises e), flag)
    | EnvIdle :: env' => Event_wait flag env'
    end.

(** [EventListener.block]: [env] is what happens once the flag is
    cleared. *)
Definition block (self : EventListener) (env : list env_event)
  : suspension unit * EventListener :=
  let self := with_stop_event false self in
  match Event_wait (_stop_event self) env with
  | (Done (Returns _), flag) => (Done (Returns tt), with_stop_event flag self)
  | (Done (Raises e), flag) =>
      if isinstance_KeyboardInterrupt e
      then (Done (Returns tt), with_stop_event flag self)
      else (Done (Raises e), with_stop_event flag self)
  | (Suspended, flag) => (Suspended, with_stop_event flag self)
  end.

(** ** Observations the statements are written with *)

(** The handler run [handle] ends up with: the looked-up method applied to
    the request, or the [AttributeError] of a failed [getattr]. *)
Definition dispatched (self : EventListener) (request : Request) : HandlerRun :=
  match handlers_getattr (handlers self) (method_name request) with
  | Some m => m request
  | None =>
      {| duration := 0;
         result := Raises (AttributeError (handlers_class (handlers self))
                                          (method_name request)) |}
  end.

(** The metrics among the emitted effects, in order. *)
Fixpoint metrics (l : list effect) : list (string * Z) :=
  match l with
  | [] => []
  | Metric name value :: l' => (name, value) :: metrics l'
  | _ :: l' => metrics l'
  end.

(** The log messages among the emitted effects, in order. *)
Fixpoint messages (l : list effect) : list log_message :=
  match l with
  | [] => []
  | Metric _ _ :: l' => messages l'
  | LogInfo m :: l' => m :: messages l'
  | LogException m _ :: l' => m :: messages l'
  end.

(** The value of the last pair with key [k] in a metadata sequence. *)
Fixpoint last_value (k : string) (metadata : list (string * string)) : option string :=
  match metadata with
  | [] => None
  | md :: metadata' =>
      match last_value k metadata' with
      | Some v => Some v
      | None => if String.eqb k md.1 then Some md.2 else None
      end
  end.

(** The run returns, or raises something [except Exception] catches. *)
Definition within_Exception (run : HandlerRun) : bool :=
  match result run with
  | Returns _ => true
  | Raises e => isinstance_Exception e
  end.

(** A call yields exactly one response and exactly one metric. *)
Definition one_response_one_metric (out : outcome EventResponse * CallState) : Prop :=
  (∃ response, out.1 = Returns response) ∧ (∃ m, metrics (emitted out.2) = [m]).

(** A failure [e] is turned into the internal-error answer. *)
Definition answered_as_internal_error (e : exc)
    (out : outcome EventResponse * CallState) : Prop :=
  out.1 = Returns service_analyzer_pb2.EventResponse_default
  ∧ code (context out.2) = Some StatusCode_INTERNAL
  ∧ details (context out.2) = Some (str_type e +:+ ": " +:+ exc_msg e)
  ∧ error (context out.2) = Some true.

(** [meta] holds every pair of the metadata sequence. *)
Definition holds_every_pair (metadata : list (string * string))
    (meta : gmap string string) : Prop :=
  ∀ k v, (k, v) ∈ metadata → meta !! k = Some v.

(** The events that end the wait of [block]: the stop event being set, or
    a [KeyboardInterrupt]. *)
Definition stop_trigger (ev : env_event) : bool :=
  match ev with
  | EnvSet => true
  | EnvRaise e => isinstance_KeyboardInterrupt e
  | EnvIdle => false
  end.

(** Every call active when [stop] is called runs to completion. *)
Definition drained (before after : EventListener) : Prop :=
  ∀ r, r ∈ active (_server before) →
       (rpc_id r, Completed) ∈ finished (_server after).

(** ** Fixtures *)

Definition responding (d : nat) (r : EventResponse) : method :=
  fun _ => {| duration := d; result := Returns r |}.

Definition failing (d : nat) (e : exc) : method :=
  fun _ => {| duration := d; result := Raises e |}.

(** A handlers object with the same behaviour for both callbacks. *)
Definition handlers_with (m : method) : HandlersObject :=
  {| handlers_class := "Handlers";
     handlers_getattr := fun name =>
       if String.eqb name "process_review_event" then Some m
       else if String.eqb name "process_push_event" then Some m
       else None |}.

Definition idle_server (n : Z) : Server :=
  {| pool_max_workers := n; maximum_concurrent_rpcs := n;
     address := "0.0.0.0:1234"; n_workers := n;
     insecure_ports := ["0.0.0.0:1234"];
     stage := STOPPED; active := []; finished := [] |}.

Definition listener_with (h : HandlersObject) : EventListener :=
  {| _server := idle_server 1; handlers := h; _stop_event := false |}.

Definition sample_review : event_pb2.ReviewEvent :=
  {| event_pb2.review_commit_revision :=
       {| event_pb2.base := {| event_pb2.internal_repository_url := "file:///repo";
                               event_pb2.hash := "aaa" |};
          event_pb2.head := {| event_pb2.internal_repository_url := "file:///fork";
                               event_pb2.hash := "bbb" |} |} |}.

Definition sample_push : event_pb2.PushEvent :=
  {| event_pb2.push_commit_revision :=
       {| event_pb2.base := {| event_pb2.internal_repository_url := "file:///repo";
                               event_pb2.hash := "aaa" |};
          event_pb2.head := {| event_pb2.internal_repository_url := "file:///repo";
                               event_pb2.hash := "ccc" |} |};
     event_pb2.distinct_commits := 3 |}.

Definition sample_response : EventResponse :=
  {| service_analyzer_pb2.analyzer_version := "1.0";
     service_analyzer_pb2.comments :=
       [{| service_analyzer_pb2.comment_file := "a.py";
           service_analyzer_pb2.comment_line := 7;
           service_analyzer_pb2.comment_text := "unused import";
           service_analyzer_pb2.comment_confidence := 90 |}] |}.

(** A listener serving one call that still needs five ticks. *)
Definition busy_listener : EventListener :=
  with_server (grpc.accept {| rpc_id := 1; remaining := 5 |})
              (start (listener_with EventHandlers)).

Definition example_entry : CallState :=
  call_entry [("user-agent", "grpc-go/1.13")] "ipv4:127.0.0.1:50412" 100 None.

Definition repeated_metadata : list (string * string) :=
  [("x-request-id", "41"); ("user-agent", "grpc-go/1.13"); ("x-request-id", "42")].

(** A handlers object that implements the push callback only. *)
Definition push_only_handlers : HandlersObject :=
  {| handlers_class := "PushOnly";
     handlers_getattr := fun name =>
       if String.eqb name "process_push_event"
       then Some (responding 2 service_analyzer_pb2.EventResponse_default)
       else None |}.

(** ** The summary string *)

(** ["%d" % n]: the decimal digits of [n], with a minus sign when negative. *)
Definition format_d (n : Z) : string :=
  DecimalString.NilZero.string_of_int (Z.to_int n).

(** [EventListener.__str__] *)
Definition __str__ (self : EventListener) : string :=
  "EventListener(" +:+ address (_server self) +:+ ", "
    +:+ format_d (n_workers (_server self)) +:+ " workers)".

(** The state a computation of the servicer leaves behind. *)
Definition state_after {A} (m : M A) (s : CallState) : CallState := (m s).2.

(** Two calls served one after the other by the same worker thread: the
    second starts with a fresh context and nothing emitted, and finds the
    logging context the first left on the thread. *)
Definition second_call_entry (first : CallState) (metadata : list (string * string))
    (peer_address : string) : CallState :=
  call_entry metadata peer_address (clock first) (slogging_context first).

(** * Properties *)

(** ** Run equations of the decorators *)

Lemma string_append_assoc (a b c : string) : (a +:+ b) +:+ c = a +:+ (b +:+ c).
Proof.
  induction a as [|x a IH]; [reflexivity|].
  exact (f_equal (String x) IH).
Qed.

Lemma snakecase_examples :
  stringcase.snakecase "ReviewEvent" = "review_event"
  ∧ stringcase.snakecase "PushEvent" = "push_event"
  ∧ stringcase.snakecase "HTTP-Push v2" = "h_t_t_p__push_v2"
  ∧ stringcase.snakecase "" = "".
Proof. repeat split; reflexivity. Qed.

Lemma method_name_review r : method_name (ReqReview r) = "process_review_event".
Proof. reflexivity. Qed.

Lemma method_name_push p : method_name (ReqPush p) = "process_push_event".
Proof. reflexivity. Qed.

(** [handle] ignores the receiver it decorates and ends as the dispatched
    run does, once its duration has passed. *)
Lemma handle_run func self request s :
  handle func self request s =
    (result (dispatched self request),
     {| context := context s;
        clock := clock s + Z.of_nat (duration (dispatched self request));
        slogging_context := slogging_context s;
        emitted := emitted s |}).
Proof.
  unfold handle, dispatched.
  destruct (handlers_getattr (handlers self) (method_name request)) as [m|].
  - unfold invoke, bind, sleep, ret, raise. simpl.
    destruct (result (m request)); reflexivity.
  - unfold raise. simpl. rewrite Z.add_0_r. destruct s; reflexivity.
Qed.

Ltac enter_timeit Hr :=
  unfold timeit, log_exceptions, try_except_Exception, bind at 1 2 3;
  unfold perf_counter at 1, set_start_time, modify_context;
  rewrite handle_run, Hr; cbn [context clock slogging_context emitted].

Lemma timed_returns self request s r :
  result (dispatched self request) = Returns r →
  timeit (log_exceptions (handle pass)) self request s =
    (Returns r,
     let d := Z.of_nat (duration (dispatched self request)) in
     {| context := {| invocation_metadata := invocation_metadata (context s);
                      peer := peer (context s); code := code (context s);
                      details := details (context s);
                      start_time := Some (clock s); error := error (context s) |};
        clock := clock s + d;
        slogging_context := slogging_context s;
        emitted := if default false (error (context s)) then emitted s
                   else emitted s ++ [Metric ("request." +:+ type_name request) d;
                                      LogInfo (MsgOK d)] |}).
Proof.
  intros Hr. enter_timeit Hr.
  unfold getattr_error, bind. cbn.
  destruct (error (context s)) as [[]|]; cbn; unfold ret;
    rewrite ?Z.add_simpl_l, <- ?app_assoc; reflexivity.
Qed.

Lemma timed_contains self request s e :
  result (dispatched self request) = Raises e →
  isinstance_Exception e = true →
  timeit (log_exceptions (handle pass)) self request s =
    (Returns service_analyzer_pb2.EventResponse_default,
     let d := Z.of_nat (duration (dispatched self request)) in
     {| context := {| invocation_metadata := invocation_metadata (context s);
                      peer := peer (context s);
                      code := Some StatusCode_INTERNAL;
                      details := Some (str_type e +:+ ": " +:+ exc_msg e);
                      start_time := Some (clock s); error := Some true |};
        clock := clock s + d;
        slogging_context := slogging_context s;
        emitted := emitted s ++ [LogException (MsgFail d) e; Metric "error" 1] |}).
Proof.
  intros Hr He. enter_timeit Hr. rewrite He.
  cbv [bind getattr_start_time perf_counter emit set_code set_details set_error
       modify_context record_event getattr_error ret
       context clock slogging_context emitted start_time error
       invocation_metadata peer code details default negb]. 
  rewrite ?Z.add_simpl_l, <- ?app_assoc; reflexivity.
Qed.

Lemma timed_escapes self request s e :
  result (dispatched self request) = Raises e →
  isinstance_Exception e = false →
  timeit (log_exceptions (handle pass)) self request s =
    (Raises e,
     {| context := {| invocation_metadata := invocation_metadata (context s);
                      peer := peer (context s); code := code (context s);
                      details := details (context s);
                      start_time := Some (clock s); error := error (context s) |};
        clock := clock s + Z.of_nat (duration (dispatched self request));
        slogging_context := slogging_context s;
        emitted := emitted s |}).
Proof.
  intros Hr He. enter_timeit Hr. rewrite He. reflexivity.
Qed.

(** The object [set_logging_context] installs. *)
Lemma serve_installs self request s :
  serve self request s =
    timeit (log_exceptions (handle pass)) self request
      {| context := context s; clock := clock s;
         slogging_context :=
           Some (<["peer" := VStr (peer (context s))]>
                   (<["meta" := VDict (collect_metadata (invocation_metadata (context s)))]>
                      (request_log_context_extractors request)));
         emitted := emitted s ++ [LogInfo (MsgNew (type_name request))] |}.
Proof. destruct request; reflexivity. Qed.

(** ** The receivers *)

(** C4: [handle] names the callback after the event type
    ([process_review_event], [process_push_event]); when the handlers object
    has that attribute, the method is applied to the request alone and the
    way it ends (response or exception) is the way [handle] ends, nothing
    but the clock changing. *)
Theorem handle_dispatches (func : receiver) self request s m :
  handlers_getattr (handlers self)
    (match request with
     | ReqReview _ => "process_review_event"
     | ReqPush _ => "process_push_event"
     end) = Some m →
  method_name request =
    match request with
    | ReqReview _ => "process_review_event"
    | ReqPush _ => "process_push_event"
    end
  ∧ (handle func self request s).1 = result (m request)
  ∧ context (handle func self request s).2 = context s
  ∧ emitted (handle func self request s).2 = emitted s
  ∧ clock (handle func self request s).2 = clock s + Z.of_nat (duration (m request)).
Proof.
  intros Hm.
  assert (Hn : method_name request =
               match request with
               | ReqReview _ => "process_review_event"
               | ReqPush _ => "process_push_event"
               end) by (destruct request; reflexivity).
  split; [exact Hn|].
  rewrite handle_run. unfold dispatched. rewrite Hn, Hm. cbn. auto.
Qed.

Lemma handle_dispatches_witness :
  handlers_getattr (handlers (listener_with (handlers_with (responding 5 sample_response))))
    "process_push_event" = Some (responding 5 sample_response)
  ∧ (handle pass (listener_with (handlers_with (responding 5 sample_response)))
       (ReqPush sample_push) example_entry).1 = Returns sample_response.
Proof.
  split; [reflexivity|].
  exact (proj1 (proj2 (handle_dispatches pass
           (listener_with (handlers_with (responding 5 sample_response)))
           (ReqPush sample_push) example_entry (responding 5 sample_response)
           eq_refl))).
Defined.

(** C9: when the dispatched handler returns, the receiver returns that very
    response, whatever the call state. *)
Theorem response_is_the_handlers self request s r :
  result (dispatched self request) = Returns r →
  (serve self request s).1 = Returns r.
Proof.
  intros Hr. rewrite serve_installs, (timed_returns _ _ _ r Hr). reflexivity.
Qed.

Lemma response_is_the_handlers_witness :
  result (dispatched (listener_with (handlers_with (responding 5 sample_response)))
            (ReqReview sample_review)) = Returns sample_response
  ∧ (serve (listener_with (handlers_with (responding 5 sample_response)))
       (ReqReview sample_review) example_entry).1 = Returns sample_response.
Proof.
  split; [reflexivity|].
  apply (response_is_the_handlers
           (listener_with (handlers_with (responding 5 sample_response)))
           (ReqReview sample_review) example_entry sample_response).
  reflexivity.
Defined.

(** C1 as stated fails: a handler leaving through [SystemExit] gets neither
    a response nor a metric. *)
Lemma system_exit_no_response_no_metric :
  ¬ one_response_one_metric
      (serve (listener_with (handlers_with (failing 3 (SystemExit "1"))))
         (ReqReview sample_review) example_entry).
Proof.
  rewrite serve_installs, (timed_escapes _ _ _ (SystemExit "1")) by reflexivity.
  unfold one_response_one_metric. intros [[response Hresponse] _].
  discriminate Hresponse.
Qed.

(** C1, amended: a call whose handler returns, or raises an instance of
    [Exception], yields exactly one response and exactly one metric:
    ["request.<EventType>"] with the elapsed clock time, the error flag left
    unset, when the handler returned; ["error"] with count 1, the error flag
    set, when it raised. *)
Theorem one_response_one_metric_within_Exception self request md p now prev :
  within_Exception (dispatched self request) = true →
  let out := serve self request (call_entry md p now prev) in
  one_response_one_metric out
  ∧ 0 <= clock out.2 - now
  ∧ match result (dispatched self request) with
    | Returns r =>
        out.1 = Returns r
        ∧ error (context out.2) = None
        ∧ metrics (emitted out.2) =
            [("request." +:+ type_name request, clock out.2 - now)]
    | Raises _ =>
        out.1 = Returns service_analyzer_pb2.EventResponse_default
        ∧ error (context out.2) = Some true
        ∧ metrics (emitted out.2) = [("error", 1)]
    end.
Proof.
  intros Hin out. subst out. unfold within_Exception in Hin.
  unfold one_response_one_metric.
  rewrite serve_installs.
  destruct (result (dispatched self request)) as [r|e] eqn:Hr.
  - rewrite (timed_returns _ _ _ r Hr). cbn. rewrite Z.add_simpl_l.
    repeat split; eauto; lia.
  - rewrite (timed_contains _ _ _ e Hr Hin). cbn. rewrite Z.add_simpl_l.
    repeat split; eauto; lia.
Qed.

Lemma one_response_one_metric_witness :
  within_Exception
    (dispatched (listener_with (handlers_with (failing 3 (ValueError "boom"))))
       (ReqReview sample_review)) = true
  ∧ metrics (emitted
      (serve (listener_with (handlers_with (failing 3 (ValueError "boom"))))
         (ReqReview sample_review) example_entry).2) = [("error", 1)].
Proof.
  split; [reflexivity|].
  exact (proj2 (proj2 (proj2 (proj2
    (one_response_one_metric_within_Exception
       (listener_with (handlers_with (failing 3 (ValueError "boom"))))
       (ReqReview sample_review) [("user-agent", "grpc-go/1.13")]
       "ipv4:127.0.0.1:50412" 100 None eq_refl))))).
Defined.

(** C2 as stated fails: [SystemExit] is not an [Exception], so it leaves
    the receiver and no status is set. *)
Lemma system_exit_propagates :
  ¬ answered_as_internal_error (SystemExit "1")
      (serve (listener_with (handlers_with (failing 3 (SystemExit "1"))))
         (ReqPush sample_push) example_entry).
Proof.
  rewrite serve_installs, (timed_escapes _ _ _ (SystemExit "1")) by reflexivity.
  unfold answered_as_internal_error. intros [Hresponse _].
  discriminate Hresponse.
Qed.

(** C2, amended: when the dispatched handler raises an instance of
    [Exception], the receiver returns the default [EventResponse], the
    status code is INTERNAL, the details are [str(type(e))], a colon, a
    space and [str(e)], and the error flag is set. *)
Theorem exception_answered_as_internal_error self request s e :
  result (dispatched self request) = Raises e →
  isinstance_Exception e = true →
  answered_as_internal_error e (serve self request s)
  ∧ details (context (serve self request s).2) =
      Some ("<class '" +:+ exc_class e +:+ "'>: " +:+ exc_msg e).
Proof.
  intros Hr He. rewrite serve_installs, (timed_contains _ _ _ e Hr He).
  unfold answered_as_internal_error, str_type. cbn.
  repeat split; try reflexivity.
  f_equal. rewrite !string_append_assoc. reflexivity.
Qed.

Lemma exception_answered_witness :
  result (dispatched (listener_with (handlers_with (failing 3 (ValueError "boom"))))
            (ReqReview sample_review)) = Raises (ValueError "boom")
  ∧ isinstance_Exception (ValueError "boom") = true
  ∧ details (context
      (serve (listener_with (handlers_with (failing 3 (ValueError "boom"))))
         (ReqReview sample_review) example_entry).2) =
      Some "<class 'ValueError'>: boom".
Proof.
  split; [reflexivity|]. split; [reflexivity|].
  exact (proj2 (exception_answered_as_internal_error
    (listener_with (handlers_with (failing 3 (ValueError "boom"))))
    (ReqReview sample_review) example_entry (ValueError "boom") eq_refl eq_refl)).
Defined.

(** An exception outside [Exception] passes every stage: no status, no
    flag, no metric, no log entry after ["new <EventType>"]. *)
Lemma escaping_exception_propagates self request md p now prev e :
  result (dispatched self request) = Raises e →
  isinstance_Exception e = false →
  let out := serve self request (call_entry md p now prev) in
  out.1 = Raises e
  ∧ code (context out.2) = None
  ∧ error (context out.2) = None
  ∧ emitted out.2 = [LogInfo (MsgNew (type_name request))].
Proof.
  intros Hr He out. subst out.
  rewrite serve_installs, (timed_escapes _ _ _ e Hr He). cbn. auto.
Qed.

(** A missing callback is an [AttributeError] raised inside the contained
    region. *)
Lemma missing_callback_contained self request s :
  handlers_getattr (handlers self) (method_name request) = None →
  (serve self request s).1 = Returns service_analyzer_pb2.EventResponse_default
  ∧ code (context (serve self request s).2) = Some StatusCode_INTERNAL.
Proof.
  intros Hnone.
  pose (e := AttributeError (handlers_class (handlers self)) (method_name request)).
  assert (Hr : result (dispatched self request) = Raises e)
    by (unfold dispatched; rewrite Hnone; reflexivity).
  rewrite serve_installs, (timed_contains _ _ _ e Hr eq_refl). cbn. auto.
Qed.

(** Without [timeit] around it, [log_exceptions] finds no start time and
    logs ["FAIL ?"]. *)
Lemma fail_unknown_without_timeit :
  messages (emitted
    (log_exceptions (handle pass)
       (listener_with (handlers_with (failing 3 (ValueError "boom"))))
       (ReqReview sample_review) example_entry).2) = [MsgFailUnknown].
Proof. reflexivity. Qed.

(** C8: in the decorated receivers [timeit] has stored the start time when
    [log_exceptions] handles a failure: no call logs ["FAIL ?"], the start
    time on the context is the clock at entry, and a contained failure is
    logged with the elapsed time. *)
Theorem fail_unknown_unreachable self request md p now prev :
  let out := serve self request (call_entry md p now prev) in
  (MsgFailUnknown ∉ messages (emitted out.2))
  ∧ start_time (context out.2) = Some now
  ∧ (∀ e, result (dispatched self request) = Raises e →
          isinstance_Exception e = true →
          messages (emitted out.2) =
            [MsgNew (type_name request); MsgFail (clock out.2 - now)]).
Proof.
  intros out. subst out. rewrite serve_installs.
  destruct (result (dispatched self request)) as [r|e] eqn:Hr.
  - rewrite (timed_returns _ _ _ r Hr). cbn.
    repeat split; [|discriminate].
    rewrite !elem_of_cons, elem_of_nil. intros [H|[H|H]]; [discriminate..|exact H].
  - destruct (isinstance_Exception e) eqn:He.
    + rewrite (timed_contains _ _ _ e Hr He). cbn. rewrite Z.add_simpl_l.
      repeat split.
      rewrite !elem_of_cons, elem_of_nil. intros [H|[H|H]]; [discriminate..|exact H].
    + rewrite (timed_escapes _ _ _ e Hr He). cbn.
      repeat split.
      * rewrite !elem_of_cons, elem_of_nil. intros [H|H]; [discriminate|exact H].
      * intros e' [= <-] He'. congruence.
Qed.

(** ** The logging context *)

Lemma foldl_metadata_lookup (metadata : list (string * string))
    (meta : gmap string string) (k : string) :
  foldl (fun meta md => <[md.1 := md.2]> meta) meta metadata !! k =
    match last_value k metadata with
    | Some v => Some v
    | None => meta !! k
    end.
Proof.
  revert meta. induction metadata as [|md metadata IH]; intros meta; [reflexivity|].
  cbn [foldl last_value]. rewrite IH.
  destruct (last_value k metadata); [reflexivity|].
  rewrite lookup_insert. destruct (String.eqb_spec k md.1) as [->|Hne].
  - rewrite decide_True by reflexivity. reflexivity.
  - rewrite decide_False by congruence. reflexivity.
Qed.

(** The dictionary built from the metadata maps each key to the value of
    its last pair. *)
Lemma collect_metadata_lookup metadata k :
  collect_metadata metadata !! k = last_value k metadata.
Proof.
  unfold collect_metadata. rewrite foldl_metadata_lookup, lookup_empty.
  destruct (last_value k metadata); reflexivity.
Qed.

Lemma last_value_None k (metadata : list (string * string)) :
  k ∉ metadata.*1 → last_value k metadata = None.
Proof.
  induction metadata as [|md metadata IH]; [reflexivity|].
  cbn. rewrite not_elem_of_cons. intros [Hne Hnotin].
  rewrite (IH Hnotin). destruct (String.eqb_spec k md.1); [contradiction|reflexivity].
Qed.

(** With pairwise distinct keys nothing is overwritten. *)
Lemma collect_metadata_distinct_keys (metadata : list (string * string)) :
  NoDup metadata.*1 → holds_every_pair metadata (collect_metadata metadata).
Proof.
  intros Hnodup k v Hin. rewrite collect_metadata_lookup.
  induction metadata as [|md metadata IH]; [by apply elem_of_nil in Hin|].
  cbn in Hnodup. apply NoDup_cons in Hnodup as [Hfresh Hnodup].
  apply elem_of_cons in Hin as [<-|Hin]; cbn.
  - cbn in Hfresh. rewrite (last_value_None k _ Hfresh), String.eqb_refl. reflexivity.
  - rewrite (IH Hnodup Hin). reflexivity.
Qed.

(** C3 as stated fails: of two metadata pairs with one key the dictionary
    under ["meta"] keeps the later only. *)
Lemma repeated_metadata_key_overwritten :
  let out := serve (listener_with EventHandlers) (ReqReview sample_review)
               (call_entry repeated_metadata "ipv4:127.0.0.1:50412" 100 None) in
  (slogging_context out.2 ≫= lookup "meta") =
    Some (VDict (collect_metadata repeated_metadata))
  ∧ collect_metadata repeated_metadata !! "x-request-id" = Some "42"
  ∧ ¬ holds_every_pair repeated_metadata (collect_metadata repeated_metadata).
Proof.
  cbv zeta. rewrite serve_installs, (timed_contains _ _ _ NotImplementedError) by reflexivity.
  split; [|split].
  - cbn [snd slogging_context mbind option_bind context peer invocation_metadata
         example_entry call_entry new_context].
    rewrite lookup_insert_ne by discriminate. apply lookup_insert_eq.
  - rewrite collect_metadata_lookup. reflexivity.
  - intros Hall. specialize (Hall "x-request-id" "41").
    rewrite collect_metadata_lookup in Hall. cbn in Hall.
    assert (H : Some "42" = Some "41") by (apply Hall; repeat constructor).
    discriminate H.
Qed.

(** The stages below [set_logging_context] leave the installed object
    alone. *)
Lemma inner_stages_keep_logging_context self request s :
  slogging_context (timeit (log_exceptions (handle pass)) self request s).2 =
    slogging_context s.
Proof.
  destruct (result (dispatched self request)) as [r|e] eqn:Hr.
  - rewrite (timed_returns _ _ _ r Hr). reflexivity.
  - destruct (isinstance_Exception e) eqn:He.
    + rewrite (timed_contains _ _ _ e Hr He). reflexivity.
    + rewrite (timed_escapes _ _ _ e Hr He). reflexivity.
Qed.

(** C3, amended: the object installed by [set_logging_context] before the
    inner stages run, and still installed when the call ends, has [type]
    equal to the event type name, the fields of the event kind, [peer] with
    the caller's address, and [meta] with a dictionary that maps every
    metadata key to the value of its last pair; it has no other key. *)
Theorem logging_context_installed self request md p now prev :
  let out := serve self request (call_entry md p now prev) in
  ∃ (obj : gmap string log_value) (meta : gmap string string),
    serve self request (call_entry md p now prev) =
      timeit (log_exceptions (handle pass)) self request
        {| context := new_context md p; clock := now;
           slogging_context := Some obj;
           emitted := [LogInfo (MsgNew (type_name request))] |}
    ∧ slogging_context out.2 = Some obj
    ∧ obj !! "type" = Some (VStr (type_name request))
    ∧ obj !! "peer" = Some (VStr p)
    ∧ obj !! "meta" = Some (VDict meta)
    ∧ (∀ k, meta !! k = last_value k md)
    ∧ match request with
      | ReqReview r =>
          type_name request = "ReviewEvent"
          ∧ obj !! "url_base" =
              Some (VStr (event_pb2.internal_repository_url
                            (event_pb2.base (event_pb2.review_commit_revision r))))
          ∧ obj !! "url_head" =
              Some (VStr (event_pb2.internal_repository_url
                            (event_pb2.head (event_pb2.review_commit_revision r))))
          ∧ obj !! "commit_base" =
              Some (VStr (event_pb2.hash
                            (event_pb2.base (event_pb2.review_commit_revision r))))
          ∧ obj !! "commit_head" =
              Some (VStr (event_pb2.hash
                            (event_pb2.head (event_pb2.review_commit_revision r))))
          ∧ dom obj = {[ "type"; "url_base"; "url_head"; "commit_base";
                         "commit_head"; "meta"; "peer" ]}
      | ReqPush q =>
          type_name request = "PushEvent"
          ∧ obj !! "url" =
              Some (VStr (event_pb2.internal_repository_url
                            (event_pb2.head (event_pb2.push_commit_revision q))))
          ∧ obj !! "head" =
              Some (VStr (event_pb2.hash
                            (event_pb2.head (event_pb2.push_commit_revision q))))
          ∧ obj !! "count" = Some (VInt (event_pb2.distinct_commits q))
          ∧ dom obj = {[ "type"; "url"; "head"; "count"; "meta"; "peer" ]}
      end.
Proof.
  intros out. subst out.
  exists (<["peer" := VStr p]>
            (<["meta" := VDict (collect_metadata md)]>
               (request_log_context_extractors request))), (collect_metadata md).
  split; [rewrite serve_installs; reflexivity|].
  split; [rewrite serve_installs, inner_stages_keep_logging_context; reflexivity|].
  split; [destruct request; reflexivity|].
  split; [apply lookup_insert_eq|].
  split; [rewrite lookup_insert_ne by discriminate; apply lookup_insert_eq|].
  split; [apply collect_metadata_lookup|].
  destruct request as [r|q]; cbn [request_log_context_extractors].
  - repeat split; reflexivity.
  - repeat split; reflexivity.
Qed.

(** ** Life cycle *)

Lemma init_refuses_empty_pool address h n :
  n <= 0 → ∃ e, __init__ address h n = inl e ∧ exc_class e = "ValueError".
Proof.
  intros Hn. unfold __init__, ThreadPoolExecutor.
  destruct (Z.leb_spec n 0); [|lia]. eexists. split; reflexivity.
Qed.

Lemma init_sample : __init__ "0.0.0.0:1234" EventHandlers 1 = inr (listener_with EventHandlers).
Proof. reflexivity. Qed.

(** C7: a listener constructed with [n_workers] has a pool of [n_workers]
    threads and admits [n_workers] concurrent calls, so the two agree. *)
Theorem init_ceiling_is_pool_size address h n self :
  __init__ address h n = inr self →
  pool_max_workers (_server self) = n
  ∧ maximum_concurrent_rpcs (_server self) = n
  ∧ maximum_concurrent_rpcs (_server self) = pool_max_workers (_server self).
Proof.
  unfold __init__, ThreadPoolExecutor.
  destruct (n <=? 0); [discriminate|]. intros [= <-]. cbn. auto.
Qed.

Lemma init_ceiling_is_pool_size_witness :
  __init__ "0.0.0.0:1234" EventHandlers 4 =
    inr (with_server (fun _ => idle_server 4) (listener_with EventHandlers))
  ∧ maximum_concurrent_rpcs (idle_server 4) = pool_max_workers (idle_server 4).
Proof.
  split; [reflexivity|].
  exact (proj2 (proj2 (init_ceiling_is_pool_size "0.0.0.0:1234" EventHandlers 4
                         (with_server (fun _ => idle_server 4) (listener_with EventHandlers))
                         eq_refl))).
Defined.

(** Starting, stopping and blocking leave both bounds as they are. *)
Lemma lifecycle_keeps_bounds self cancel_running env :
  let bounds := fun l => (pool_max_workers (_server l), maximum_concurrent_rpcs (_server l)) in
  bounds (start self) = bounds self
  ∧ bounds (stop self cancel_running) = bounds self
  ∧ bounds (block self env).2 = bounds self.
Proof.
  cbv zeta. split; [reflexivity|]. split.
  - unfold stop, with_server, with_stop_event, grpc.stop. cbn.
    destruct (stage (_server self)); reflexivity.
  - unfold block. destruct (Event_wait _ env) as [[[b|e]|] flag]; cbn;
      [reflexivity| |reflexivity].
    destruct (isinstance_KeyboardInterrupt e); reflexivity.
Qed.

(** The listener of [init_sample], started, with one call accepted. *)
Lemma busy_listener_serving :
  stage (_server busy_listener) = STARTED
  ∧ active (_server busy_listener) = [{| rpc_id := 1; remaining := 5 |}]
  ∧ finished (_server busy_listener) = [].
Proof. repeat split; reflexivity. Qed.

(** C5 as stated fails: [stop(cancel_running=False)] passes a grace period
    of zero, and the call still running is aborted, not awaited. *)
Lemma stop_without_cancel_aborts_running_call :
  finished (_server (stop busy_listener false)) = [(1%nat, Aborted)]
  ∧ ¬ drained busy_listener (stop busy_listener false).
Proof.
  split; [reflexivity|].
  intros Hdrained.
  specialize (Hdrained {| rpc_id := 1; remaining := 5 |}).
  assert (H : (1%nat, Completed) ∈ [(1%nat, Aborted)]).
  { apply Hdrained. apply list_elem_of_singleton. reflexivity. }
  apply list_elem_of_singleton in H. discriminate H.
Qed.

(** C5, amended: [stop] always sets the stop event and a second [stop]
    changes nothing; it asks the server to stop with no grace period when
    [cancel_running] is true and with a grace period of zero otherwise, so
    on a started server every active call that still needs time is aborted
    in both modes and no call stays active. *)
Theorem stop_sets_event_and_aborts self cancel_running :
  let after := stop self cancel_running in
  _stop_event after = true
  ∧ (∀ again, stop after again = after)
  ∧ _server after =
      grpc.stop (if cancel_running then None else Some 0%nat) (_server self)
  ∧ (stage (_server self) = STARTED →
       stage (_server after) = STOPPED
       ∧ active (_server after) = []
       ∧ ∀ r, r ∈ active (_server self) →
              cancel_running = true ∨ (0 < remaining r)%nat →
              (rpc_id r, Aborted) ∈ finished (_server after)).
Proof.
  intros after. subst after. split; [reflexivity|]. split; [|split; [reflexivity|]].
  - intros again. unfold stop, with_server, with_stop_event, grpc.stop. cbn.
    destruct (stage (_server self)) eqn:Hstage; cbn; rewrite ?Hstage; reflexivity.
  - intros Hstage. unfold stop, with_server, with_stop_event, grpc.stop. cbn.
    rewrite Hstage. cbn. repeat split.
    intros r Hr Hmode. apply elem_of_app. right.
    apply list_elem_of_fmap. exists r. split; [|exact Hr].
    f_equal. unfold grpc.fate.
    destruct cancel_running; [reflexivity|].
    destruct Hmode as [Hmode|Hmode]; [discriminate|].
    destruct (Nat.leb_spec (remaining r) 0); [lia|reflexivity].
Qed.

(** With the flag down and nothing but idle events the wait goes on. *)
Lemma Event_wait_idle (n : nat) :
  Event_wait false (repeat EnvIdle n) = (Suspended, false).
Proof. induction n as [|n IH]; [reflexivity|exact IH]. Qed.

Lemma Event_wait_idle_then (n : nat) ev rest :
  Event_wait false ((repeat EnvIdle n ++ ev :: rest)%list) = Event_wait false (ev :: rest).
Proof. induction n as [|n IH]; [reflexivity|exact IH]. Qed.

Lemma Event_wait_done env o flag :
  Event_wait false env = (Done o, flag) →
  ∃ n ev rest, env = (repeat EnvIdle n ++ ev :: rest)%list ∧ ev ≠ EnvIdle
               ∧ Event_wait false [ev] = (Done o, flag).
Proof.
  induction env as [|ev env IH]; [discriminate|].
  destruct ev as [|e|].
  - intros H. exists 0%nat, EnvSet, env. repeat split; [discriminate|exact H].
  - intros H. exists 0%nat, (EnvRaise e), env. repeat split; [discriminate|exact H].
  - intros H. destruct (IH H) as (n & ev & rest & -> & Hne & Hev).
    exists (S n), ev, rest. repeat split; assumption.
Qed.

(** The flag [block] finds does not matter: it is cleared first. *)
Lemma block_clears_first self b env :
  block (with_stop_event b self) env = block self env.
Proof. reflexivity. Qed.

(** An exception other than [KeyboardInterrupt] raised into the wait leaves
    [block]. *)
Lemma block_propagates_other self (n : nat) e rest :
  isinstance_KeyboardInterrupt e = false →
  (block self ((repeat EnvIdle n ++ EnvRaise e :: rest)%list)).1 = Done (Raises e).
Proof.
  intros He. unfold block. cbn [_stop_event with_stop_event].
  rewrite Event_wait_idle_then. cbn. rewrite He. reflexivity.
Qed.

(** C6: [block] stays suspended while nothing happens, and returns normally
    as soon as the stop event is set or a [KeyboardInterrupt] reaches the
    waiting thread. *)
Theorem block_returns_on_stop_trigger self (n : nat) ev rest :
  stop_trigger ev = true →
  (block self (repeat EnvIdle n)).1 = Suspended
  ∧ (block self ((repeat EnvIdle n ++ ev :: rest)%list)).1 = Done (Returns tt).
Proof.
  intros Hev. unfold block. cbn [_stop_event with_stop_event].
  rewrite Event_wait_idle, Event_wait_idle_then. split; [reflexivity|].
  destruct ev as [|e|]; cbn in *; [reflexivity| |discriminate].
  rewrite Hev. reflexivity.
Qed.

Lemma block_returns_on_interrupt_witness :
  stop_trigger (EnvRaise KeyboardInterrupt) = true
  ∧ (block (start (listener_with EventHandlers))
       [EnvIdle; EnvIdle; EnvRaise KeyboardInterrupt]).1 = Done (Returns tt).
Proof.
  split; [reflexivity|].
  exact (proj2 (block_returns_on_stop_trigger (start (listener_with EventHandlers))
                  2 (EnvRaise KeyboardInterrupt) [] eq_refl)).
Defined.

(** C10: [block] clears the event before it waits.  After [stop] the event
    is set, yet [block] called then stays suspended however long nothing
    happens, and behaves as if [stop] had not been called; whenever [block]
    returns, a stop trigger came after it began to wait. *)
Theorem block_ignores_earlier_stop self cancel_running :
  _stop_event (stop self cancel_running) = true
  ∧ (∀ n : nat, (block (stop self cancel_running) (repeat EnvIdle n)).1 = Suspended)
  ∧ (∀ env, (block (stop self cancel_running) env).1 = (block self env).1)
  ∧ (∀ env, (block self env).1 = Done (Returns tt) →
            ∃ (n : nat) ev rest,
              env = (repeat EnvIdle n ++ ev :: rest)%list ∧ stop_trigger ev = true).
Proof.
  split; [reflexivity|]. split; [|split].
  - intros n. unfold block. cbn [_stop_event with_stop_event].
    rewrite Event_wait_idle. reflexivity.
  - intros env. unfold block. cbn [_stop_event with_stop_event].
    destruct (Event_wait false env) as [[[b|e]|] flag]; cbn; [reflexivity| |reflexivity].
    destruct (isinstance_KeyboardInterrupt e); reflexivity.
  - intros env. unfold block. cbn [_stop_event with_stop_event].
    destruct (Event_wait false env) as [[o|] flag] eqn:Hwait; [|discriminate].
    destruct (Event_wait_done _ _ _ Hwait) as (n & ev & rest & -> & Hne & Hev).
    intros Hret. exists n, ev, rest. split; [reflexivity|].
    destruct ev as [|e|]; [reflexivity| |contradiction].
    cbn in Hev. injection Hev as <- <-. cbn in Hret.
    destruct (isinstance_KeyboardInterrupt e) eqn:He; [exact He|discriminate].
Qed.

(** * Further properties of the decorators, taken one at a time *)

(** [timeit] in one step, for any decorated receiver. *)
Lemma timeit_run (func : receiver) self request s :
  timeit func self request s =
    match func self request (state_after (set_start_time (clock s)) s) with
    | (Returns r, s') =>
        (Returns r,
         if default false (error (context s')) then s'
         else {| context := context s'; clock := clock s';
                 slogging_context := slogging_context s';
                 emitted := emitted s' ++
                   [Metric ("request." +:+ type_name request) (clock s' - clock s);
                    LogInfo (MsgOK (clock s' - clock s))] |})
    | (Raises e, s') => (Raises e, s')
    end.
Proof.
  unfold timeit, state_after, bind, perf_counter, set_start_time, modify_context,
    getattr_error, record_event, emit, ret.
  cbn [fst snd context clock slogging_context emitted].
  destruct (func self request _) as [[r|e] s']; [|reflexivity].
  destruct (error (context s')) as [[]|]; cbn; rewrite <- ?app_assoc; reflexivity.
Qed.

(** X1: around any receiver that returns, [timeit] returns the same
    response and changes nothing but the emitted effects: unless the error
    flag is true afterwards it appends the metric ["request.<EventType>"]
    and the ["OK"] log entry, both with the clock difference between the
    two reads; with the flag true it appends nothing. *)
Theorem timeit_adds_metric_unless_error (func : receiver) self request s r s' :
  func self request (state_after (set_start_time (clock s)) s) = (Returns r, s') →
  let out := timeit func self request s in
  out.1 = Returns r
  ∧ context out.2 = context s'
  ∧ clock out.2 = clock s'
  ∧ slogging_context out.2 = slogging_context s'
  ∧ emitted out.2 =
      (emitted s' ++
       if default false (error (context s')) then []
       else [Metric ("request." +:+ type_name request) (clock s' - clock s);
             LogInfo (MsgOK (clock s' - clock s))])%list.
Proof.
  intros Hfunc out. subst out. rewrite timeit_run, Hfunc.
  destruct (error (context s')) as [[]|]; cbn; rewrite ?app_nil_r; auto.
Qed.

Lemma timeit_adds_metric_witness :
  handle pass (listener_with (handlers_with (responding 5 sample_response)))
    (ReqPush sample_push) (state_after (set_start_time (clock example_entry)) example_entry) =
    (Returns sample_response,
     state_after (sleep 5) (state_after (set_start_time 100) example_entry))
  ∧ metrics (emitted
      (timeit (handle pass) (listener_with (handlers_with (responding 5 sample_response)))
         (ReqPush sample_push) example_entry).2) = [("request.PushEvent", 5)].
Proof.
  split; [reflexivity|].
  pose proof (timeit_adds_metric_unless_error (handle pass)
                (listener_with (handlers_with (responding 5 sample_response)))
                (ReqPush sample_push) example_entry sample_response
                (state_after (sleep 5) (state_after (set_start_time 100) example_entry))
                eq_refl) as H.
  cbv zeta in H. destruct H as (_ & _ & _ & _ & H). rewrite H. reflexivity.
Defined.

(** X2: an exception raised by the decorated receiver passes through
    [timeit] as it is, instances of [Exception] included: no metric, no log
    entry, and the state the receiver left. *)
Theorem timeit_passes_exception (func : receiver) self request s e s' :
  func self request (state_after (set_start_time (clock s)) s) = (Raises e, s') →
  timeit func self request s = (Raises e, s').
Proof. intros Hfunc. rewrite timeit_run, Hfunc. reflexivity. Qed.

Lemma timeit_passes_exception_witness :
  handle pass (listener_with (handlers_with (failing 3 (ValueError "boom"))))
    (ReqReview sample_review)
    (state_after (set_start_time (clock example_entry)) example_entry) =
    (Raises (ValueError "boom"),
     state_after (sleep 3) (state_after (set_start_time 100) example_entry))
  ∧ (timeit (handle pass) (listener_with (handlers_with (failing 3 (ValueError "boom"))))
       (ReqReview sample_review) example_entry).1 = Raises (ValueError "boom").
Proof.
  split; [reflexivity|].
  rewrite (timeit_passes_exception (handle pass)
             (listener_with (handlers_with (failing 3 (ValueError "boom"))))
             (ReqReview sample_review) example_entry (ValueError "boom")
             (state_after (sleep 3) (state_after (set_start_time 100) example_entry))
             eq_refl).
  reflexivity.
Defined.

(** X3: around any receiver that raises an instance of [Exception],
    [log_exceptions] returns the default response, sets INTERNAL, the
    details and the error flag, and appends exactly two effects: the
    exception log entry, ["FAIL <elapsed>"] when the context carries a start
    time and ["FAIL ?"] when it does not, then the metric ["error"] with
    count 1.  Metadata, peer, start time, clock and logging context are
    left as the receiver left them. *)
Theorem log_exceptions_contains (func : receiver) self request s e s' :
  func self request s = (Raises e, s') →
  isinstance_Exception e = true →
  let out := log_exceptions func self request s in
  answered_as_internal_error e out
  ∧ emitted out.2 =
      (emitted s' ++
       [LogException
          match start_time (context s') with
          | Some t0 => MsgFail (clock s' - t0)
          | None => MsgFailUnknown
          end e;
        Metric "error" 1])%list
  ∧ invocation_metadata (context out.2) = invocation_metadata (context s')
  ∧ peer (context out.2) = peer (context s')
  ∧ start_time (context out.2) = start_time (context s')
  ∧ clock out.2 = clock s'
  ∧ slogging_context out.2 = slogging_context s'.
Proof.
  intros Hfunc He out. subst out.
  unfold log_exceptions, try_except_Exception, answered_as_internal_error.
  rewrite Hfunc, He.
  cbv [bind getattr_start_time perf_counter emit set_code set_details set_error
       modify_context record_event ret fst snd].
  destruct (start_time (context s')) as [t0|] eqn:Ht0;
    cbn [context clock slogging_context emitted start_time error
         invocation_metadata peer code details fst snd];
    rewrite <- ?app_assoc; auto 10.
Qed.

Lemma log_exceptions_contains_witness :
  handle pass (listener_with (handlers_with (failing 3 (ValueError "boom"))))
    (ReqReview sample_review) example_entry =
    (Raises (ValueError "boom"), state_after (sleep 3) example_entry)
  ∧ isinstance_Exception (ValueError "boom") = true
  ∧ emitted (log_exceptions (handle pass)
               (listener_with (handlers_with (failing 3 (ValueError "boom"))))
               (ReqReview sample_review) example_entry).2 =
      [LogException MsgFailUnknown (ValueError "boom"); Metric "error" 1].
Proof.
  split; [reflexivity|]. split; [reflexivity|].
  exact (proj1 (proj2 (log_exceptions_contains (handle pass)
           (listener_with (handlers_with (failing 3 (ValueError "boom"))))
           (ReqReview sample_review) example_entry (ValueError "boom")
           (state_after (sleep 3) example_entry) eq_refl eq_refl))).
Defined.

(** X4: [log_exceptions] is invisible around a receiver that returns (same
    response, same state), and whatever the receiver does no instance of
    [Exception] leaves it: such a failure becomes the default response, and
    what still propagates is outside [Exception] and comes with the state
    the receiver left. *)
Theorem log_exceptions_lets_no_Exception_out (func : receiver) self request s :
  match func self request s with
  | (Returns r, s') => log_exceptions func self request s = (Returns r, s')
  | (Raises e, s') =>
      if isinstance_Exception e
      then (log_exceptions func self request s).1 =
             Returns service_analyzer_pb2.EventResponse_default
      else log_exceptions func self request s = (Raises e, s')
  end
  ∧ match (log_exceptions func self request s).1 with
    | Returns _ => True
    | Raises e => isinstance_Exception e = false
    end.
Proof.
  unfold log_exceptions, try_except_Exception.
  destruct (func self request s) as [[r|e] s'] eqn:Hfunc; [split; [reflexivity|exact I]|].
  destruct (isinstance_Exception e) eqn:He; [|cbn; rewrite He; auto].
  cbv [bind getattr_start_time perf_counter emit set_code set_details set_error
       modify_context record_event ret fst snd].
  destruct (start_time (context s')); split; first [reflexivity|exact I].
Qed.

(** * Further properties of a whole call *)

(** X5: what a call leaves behind, for every handler outcome.  The log
    entry ["new <EventType>"] comes first; a returning handler adds the
    request metric and then ["OK"]; a handler raising an instance of
    [Exception] adds the exception entry ["FAIL <elapsed>"] and then the
    error metric; any other exception adds nothing and propagates.  The
    metadata and the peer of the context are never changed and the start
    time is the clock at entry. *)
Theorem call_effects_in_order self request md p now prev :
  let run := dispatched self request in
  let out := serve self request (call_entry md p now prev) in
  let d := Z.of_nat (duration run) in
  emitted out.2 =
    LogInfo (MsgNew (type_name request)) ::
    match result run with
    | Returns _ =>
        [Metric ("request." +:+ type_name request) d; LogInfo (MsgOK d)]
    | Raises e =>
        if isinstance_Exception e
        then [LogException (MsgFail d) e; Metric "error" 1]
        else []
    end
  ∧ out.1 =
      match result run with
      | Returns r => Returns r
      | Raises e =>
          if isinstance_Exception e
          then Returns service_analyzer_pb2.EventResponse_default
          else Raises e
      end
  ∧ invocation_metadata (context out.2) = md
  ∧ peer (context out.2) = p
  ∧ start_time (context out.2) = Some now
  ∧ clock out.2 = now + d.
Proof.
  intros run out d. subst run out d. rewrite serve_installs.
  destruct (result (dispatched self request)) as [r|e] eqn:Hr.
  - rewrite (timed_returns _ _ _ r Hr). cbn. auto 10.
  - destruct (isinstance_Exception e) eqn:He.
    + rewrite (timed_contains _ _ _ e Hr He). cbn. auto 10.
    + rewrite (timed_escapes _ _ _ e Hr He). cbn. auto 10.
Qed.

(** X6: after every call the error flag, the status code and the error
    metric agree: the flag is set exactly when the code is INTERNAL, exactly
    when the only metric is ["error"] with count 1, and exactly when the
    handler raised an instance of [Exception]; otherwise flag, code and
    details are all left unset. *)
Theorem status_flag_and_metric_agree self request md p now prev :
  let out := serve self request (call_entry md p now prev) in
  (error (context out.2) = Some true ↔ code (context out.2) = Some StatusCode_INTERNAL)
  ∧ (error (context out.2) = Some true ↔ metrics (emitted out.2) = [("error", 1)])
  ∧ (error (context out.2) = Some true ↔
       ∃ e, result (dispatched self request) = Raises e ∧ isinstance_Exception e = true)
  ∧ (error (context out.2) ≠ Some true →
       error (context out.2) = None
       ∧ code (context out.2) = None
       ∧ details (context out.2) = None).
Proof.
  intros out. subst out. rewrite serve_installs.
  destruct (result (dispatched self request)) as [r|e] eqn:Hr.
  - rewrite (timed_returns _ _ _ r Hr). cbn.
    split; [split; discriminate|]. split; [split; [discriminate|]|].
    { intros H. injection H as H _. destruct request; discriminate H. }
    split; [split; [discriminate|]|auto].
    intros (e & He & _). discriminate He.
  - destruct (isinstance_Exception e) eqn:He.
    + rewrite (timed_contains _ _ _ e Hr He). cbn.
      split; [split; reflexivity|]. split; [split; reflexivity|].
      split; [split; [intros _; exists e; auto|reflexivity]|].
      intros H. contradiction H. reflexivity.
    + rewrite (timed_escapes _ _ _ e Hr He). cbn.
      split; [split; discriminate|]. split; [split; discriminate|].
      split; [split; [discriminate|]|auto].
      intros (e' & He' & Hin). injection He' as <-. congruence.
Qed.

(** X7: no call emits more than one metric, whatever its handler does, and
    a metric is either ["request.<EventType>"] with a non-negative value or
    ["error"] with value 1. *)
Theorem at_most_one_metric self request md p now prev :
  let out := serve self request (call_entry md p now prev) in
  (length (metrics (emitted out.2)) <= 1)%nat
  ∧ (∀ name value, (name, value) ∈ metrics (emitted out.2) →
       (name = "request." +:+ type_name request ∧ 0 <= value)
       ∨ (name = "error" ∧ value = 1)).
Proof.
  intros out. subst out. rewrite serve_installs.
  destruct (result (dispatched self request)) as [r|e] eqn:Hr.
  - rewrite (timed_returns _ _ _ r Hr). cbn. split; [lia|].
    intros name value Hin. apply list_elem_of_singleton in Hin.
    injection Hin as -> ->. left. split; [reflexivity|lia].
  - destruct (isinstance_Exception e) eqn:He.
    + rewrite (timed_contains _ _ _ e Hr He). cbn. split; [lia|].
      intros name value Hin. apply list_elem_of_singleton in Hin.
      injection Hin as -> ->. right. auto.
    + rewrite (timed_escapes _ _ _ e Hr He). cbn. split; [lia|].
      intros name value Hin. apply elem_of_nil in Hin. contradiction.
Qed.

(** X8: when the handlers object has no attribute of the derived name, the
    call is answered like any handler failure: default response, INTERNAL,
    and the details carry the [AttributeError] naming the class of the
    object and the missing callback. *)
Theorem missing_callback_reported self request md p now prev :
  handlers_getattr (handlers self) (method_name request) = None →
  let out := serve self request (call_entry md p now prev) in
  out.1 = Returns service_analyzer_pb2.EventResponse_default
  ∧ code (context out.2) = Some StatusCode_INTERNAL
  ∧ details (context out.2) =
      Some ("<class 'AttributeError'>: '" +:+ handlers_class (handlers self)
            +:+ "' object has no attribute '" +:+ method_name request +:+ "'")
  ∧ metrics (emitted out.2) = [("error", 1)]
  ∧ clock out.2 = now.
Proof.
  intros Hnone out. subst out.
  pose (e := AttributeError (handlers_class (handlers self)) (method_name request)).
  assert (Hrun : dispatched self request = {| duration := 0; result := Raises e |})
    by (unfold dispatched; rewrite Hnone; reflexivity).
  rewrite serve_installs, (timed_contains _ _ _ e) by (rewrite ?Hrun; reflexivity).
  rewrite Hrun. cbn. rewrite Z.add_0_r. auto 10.
Qed.

Lemma missing_callback_reported_witness :
  handlers_getattr (handlers (listener_with push_only_handlers))
    (method_name (ReqReview sample_review)) = None
  ∧ details (context (serve (listener_with push_only_handlers)
                        (ReqReview sample_review) example_entry).2) =
      Some "<class 'AttributeError'>: 'PushOnly' object has no attribute 'process_review_event'".
Proof.
  split; [reflexivity|].
  exact (proj1 (proj2 (proj2 (missing_callback_reported
           (listener_with push_only_handlers) (ReqReview sample_review)
           [("user-agent", "grpc-go/1.13")] "ipv4:127.0.0.1:50412" 100 None
           eq_refl)))).
Defined.

(** X9: a listener given the interface class [EventHandlers] itself
    answers every event with INTERNAL and the details
    ["<class 'NotImplementedError'>: "], counts one error, and takes no
    time in the handler. *)
Theorem interface_handlers_not_implemented srv flag request md p now prev :
  let self := {| _server := srv; handlers := EventHandlers; _stop_event := flag |} in
  let out := serve self request (call_entry md p now prev) in
  out.1 = Returns service_analyzer_pb2.EventResponse_default
  ∧ code (context out.2) = Some StatusCode_INTERNAL
  ∧ details (context out.2) = Some "<class 'NotImplementedError'>: "
  ∧ error (context out.2) = Some true
  ∧ emitted out.2 =
      [LogInfo (MsgNew (type_name request));
       LogException (MsgFail 0) NotImplementedError;
       Metric "error" 1].
Proof.
  intros self out. subst self out.
  rewrite serve_installs,
    (timed_contains _ _ _ NotImplementedError) by (destruct request; reflexivity).
  destruct request; cbn; auto 10.
Qed.

(** X10: the logging context does not leak from one call to the next on a
    worker thread: after a second call the installed object is the one built
    from the second request, its metadata and its peer, exactly as on a
    thread that served nothing before. *)
Theorem later_call_replaces_logging_context
    self request1 request2 md1 p1 md2 p2 now prev :
  let first := (serve self request1 (call_entry md1 p1 now prev)).2 in
  let second := (serve self request2 (second_call_entry first md2 p2)).2 in
  slogging_context second =
    Some (<["peer" := VStr p2]>
            (<["meta" := VDict (collect_metadata md2)]>
               (request_log_context_extractors request2)))
  ∧ slogging_context second =
      slogging_context (serve self request2 (call_entry md2 p2 (clock first) None)).2.
Proof.
  intros first second. subst first second. unfold second_call_entry.
  rewrite !(serve_installs self request2), !inner_stages_keep_logging_context.
  split; reflexivity.
Qed.

(** * Further properties of the metadata dictionary *)

Lemma last_value_Some_elem k v (metadata : list (string * string)) :
  last_value k metadata = Some v → (k, v) ∈ metadata.
Proof.
  induction metadata as [|md metadata IH]; [discriminate|].
  cbn. destruct (last_value k metadata) as [v'|].
  - intros [= ->]. apply elem_of_cons. right. apply IH. reflexivity.
  - destruct (String.eqb_spec k md.1) as [->|]; [|discriminate].
    intros [= <-]. apply elem_of_cons. left. destruct md; reflexivity.
Qed.

Lemma last_value_is_Some k (metadata : list (string * string)) :
  is_Some (last_value k metadata) ↔ k ∈ metadata.*1.
Proof.
  split.
  - intros [v Hv]. apply last_value_Some_elem in Hv.
    apply list_elem_of_fmap. exists (k, v). auto.
  - intros Hin. destruct (last_value k metadata) as [v|] eqn:Hv; [eauto|].
    exfalso. induction metadata as [|md metadata IH]; [by apply elem_of_nil in Hin|].
    cbn in Hv, Hin. destruct (last_value k metadata); [discriminate|].
    destruct (String.eqb_spec k md.1) as [|Hne]; [discriminate|].
    apply elem_of_cons in Hin as [Hin|Hin]; [contradiction|]. auto.
Qed.

(** X11: the keys of the dictionary stored under ["meta"] are exactly the
    keys that occur in the call metadata; without metadata it is empty. *)
Theorem collect_metadata_keys (metadata : list (string * string)) :
  dom (collect_metadata metadata) = list_to_set metadata.*1
  ∧ (metadata = [] ↔ collect_metadata metadata = ∅).
Proof.
  assert (Hdom : dom (collect_metadata metadata) = list_to_set metadata.*1).
  { apply set_eq. intros k.
    rewrite elem_of_dom, collect_metadata_lookup, last_value_is_Some,
      elem_of_list_to_set. reflexivity. }
  split; [exact Hdom|]. split; [intros ->; reflexivity|].
  intros Hempty. rewrite Hempty, dom_empty_L in Hdom.
  destruct metadata as [|md metadata]; [reflexivity|].
  cbn in Hdom. set_solver.
Qed.

(** X12: when the metadata keys are pairwise distinct, the dictionary holds
    every key/value pair and has as many entries as there are pairs. *)
Theorem collect_metadata_keeps_distinct_pairs (metadata : list (string * string)) :
  NoDup metadata.*1 →
  holds_every_pair metadata (collect_metadata metadata)
  ∧ size (collect_metadata metadata) = length metadata.
Proof.
  intros Hnodup. split; [apply collect_metadata_distinct_keys, Hnodup|].
  rewrite <- size_dom, (proj1 (collect_metadata_keys metadata)),
    size_list_to_set, length_fmap by exact Hnodup.
  reflexivity.
Qed.

Lemma collect_metadata_keeps_distinct_pairs_witness :
  NoDup [("user-agent", "grpc-go/1.13"); ("x-request-id", "42")].*1
  ∧ size (collect_metadata [("user-agent", "grpc-go/1.13"); ("x-request-id", "42")]) = 2%nat.
Proof.
  assert (H : NoDup [("user-agent", "grpc-go/1.13"); ("x-request-id", "42")].*1)
    by (apply (bool_decide_unpack _); vm_compute; exact I).
  split; [exact H|].
  exact (proj2 (collect_metadata_keeps_distinct_pairs
                  [("user-agent", "grpc-go/1.13"); ("x-request-id", "42")] H)).
Defined.

(** X13: when the metadata keys are pairwise distinct, the order in which
    the pairs arrive does not matter. *)
Theorem collect_metadata_order_irrelevant (metadata metadata' : list (string * string)) :
  NoDup metadata.*1 →
  metadata ≡ₚ metadata' →
  collect_metadata metadata = collect_metadata metadata'.
Proof.
  intros Hnodup Hperm.
  assert (Hnodup' : NoDup metadata'.*1) by (rewrite <- Hperm; exact Hnodup).
  apply map_eq. intros k. apply option_eq. intros v.
  rewrite !collect_metadata_lookup. split; intros Hv.
  - apply last_value_Some_elem in Hv. rewrite Hperm in Hv.
    rewrite <- collect_metadata_lookup.
    exact (collect_metadata_distinct_keys _ Hnodup' k v Hv).
  - apply last_value_Some_elem in Hv. rewrite <- Hperm in Hv.
    rewrite <- collect_metadata_lookup.
    exact (collect_metadata_distinct_keys _ Hnodup k v Hv).
Qed.

Lemma collect_metadata_order_irrelevant_witness :
  NoDup [("user-agent", "grpc-go/1.13"); ("x-request-id", "42")].*1
  ∧ [("user-agent", "grpc-go/1.13"); ("x-request-id", "42")]
      ≡ₚ [("x-request-id", "42"); ("user-agent", "grpc-go/1.13")]
  ∧ collect_metadata [("user-agent", "grpc-go/1.13"); ("x-request-id", "42")] =
      collect_metadata [("x-request-id", "42"); ("user-agent", "grpc-go/1.13")].
Proof.
  assert (H : NoDup [("user-agent", "grpc-go/1.13"); ("x-request-id", "42")].*1)
    by (apply (bool_decide_unpack _); vm_compute; exact I).
  split; [exact H|]. split; [apply perm_swap|].
  exact (collect_metadata_order_irrelevant _ _ H (perm_swap _ _ _)).
Defined.

(** * Further properties of the life cycle *)


(** X15: when [block] returns, the server and the handlers are as before
    and the stop event tells why it returned: set after another thread set
    it, still clear after a [KeyboardInterrupt].  [block] never stops the
    server itself. *)
Theorem block_leaves_server_running self (n : nat) ev rest :
  stop_trigger ev = true →
  let out := block self (repeat EnvIdle n ++ ev :: rest)%list in
  out.1 = Done (Returns tt)
  ∧ _server out.2 = _server self
  ∧ handlers out.2 = handlers self
  ∧ _stop_event out.2 = match ev with EnvSet => true | _ => false end.
Proof.
  intros Hev out. subst out. unfold block. cbn [_stop_event with_stop_event].
  rewrite Event_wait_idle_then.
  destruct ev as [|e|]; cbn in *; [auto| |discriminate].
  rewrite Hev. auto.
Qed.

Lemma block_leaves_server_running_witness :
  stop_trigger (EnvRaise KeyboardInterrupt) = true
  ∧ stage (_server (block (start (listener_with EventHandlers))
                      [EnvIdle; EnvRaise KeyboardInterrupt]).2) = STARTED
  ∧ _stop_event (block (start (listener_with EventHandlers))
                   [EnvIdle; EnvRaise KeyboardInterrupt]).2 = false.
Proof.
  split; [reflexivity|].
  pose proof (block_leaves_server_running (start (listener_with EventHandlers))
                1 (EnvRaise KeyboardInterrupt) [] eq_refl) as H.
  cbv zeta in H. destruct H as (_ & Hserver & _ & Hflag).
  split; [exact (f_equal stage Hserver)|exact Hflag].
Defined.

(** X16: an exception that is not a [KeyboardInterrupt], raised into the
    waiting thread, leaves [block] as it is; the stop event stays clear and
    the server untouched. *)
Theorem block_lets_other_exceptions_out self (n : nat) e rest :
  isinstance_KeyboardInterrupt e = false →
  let out := block self (repeat EnvIdle n ++ EnvRaise e :: rest)%list in
  out.1 = Done (Raises e)
  ∧ _stop_event out.2 = false
  ∧ _server out.2 = _server self.
Proof.
  intros He out. subst out. unfold block. cbn [_stop_event with_stop_event].
  rewrite Event_wait_idle_then. cbn. rewrite He. auto.
Qed.

Lemma block_lets_other_exceptions_out_witness :
  isinstance_KeyboardInterrupt (SystemExit "15") = false
  ∧ (block (start (listener_with EventHandlers))
       [EnvIdle; EnvRaise (SystemExit "15"); EnvSet]).1 = Done (Raises (SystemExit "15")).
Proof.
  split; [reflexivity|].
  exact (proj1 (block_lets_other_exceptions_out (start (listener_with EventHandlers))
                  1 (SystemExit "15") [EnvSet] eq_refl)).
Defined.

(** X17: the summary string of a constructed listener names the address and
    the worker count given to the constructor, and starting, blocking or
    stopping the listener does not change it. *)
Theorem summary_fixed_at_construction address h n self cancel_running env :
  __init__ address h n = inr self →
  __str__ self = "EventListener(" +:+ address +:+ ", " +:+ format_d n +:+ " workers)"
  ∧ __str__ (start self) = __str__ self
  ∧ __str__ (stop self cancel_running) = __str__ self
  ∧ __str__ (stop (start self) cancel_running) = __str__ self
  ∧ __str__ (block self env).2 = __str__ self.
Proof.
  unfold __init__, ThreadPoolExecutor.
  destruct (n <=? 0); [discriminate|]. intros [= <-].
  split; [reflexivity|]. split; [reflexivity|]. split; [reflexivity|].
  split; [reflexivity|].
  unfold block. destruct (Event_wait _ env) as [[[b|e]|] flag]; cbn;
    [reflexivity| |reflexivity].
  destruct (isinstance_KeyboardInterrupt e); reflexivity.
Qed.

Lemma summary_fixed_at_construction_witness :
  __init__ "0.0.0.0:1234" EventHandlers 4 =
    inr (with_server (fun _ => idle_server 4) (listener_with EventHandlers))
  ∧ __str__ (with_server (fun _ => idle_server 4) (listener_with EventHandlers)) =
      "EventListener(0.0.0.0:1234, 4 workers)".
Proof.
  split; [reflexivity|].
  exact (proj1 (summary_fixed_at_construction "0.0.0.0:1234" EventHandlers 4
                  (with_server (fun _ => idle_server 4) (listener_with EventHandlers))
                  false [] eq_refl)).
Defined.
